(** * Peeq: connection and introspection engine (src/app.go)

    Shallow embedding of the [App] methods of [src/app.go]: the connection
    store kept in [config.db], the single active connection, the probe
    [TestConnection], table listing [GetTables], column introspection
    [getColumnInfo] and paginated reads [GetTableData].

    The outside world (GORM, the SQL drivers and the live backends) is an
    environment [Env] that the methods query; the values that flow through
    [database/sql] are a closed sum [dval], and the conversions that
    [Rows.Scan] applies for each destination type follow [convertAssign].
    Every handle opened by [gorm.Open] gets a fresh number and is recorded
    in [open_handles] until it is closed, so that leaks are observable. *)

From Stdlib Require Import ZArith Ascii String Lia.
From stdpp Require Import base gmap strings list.

Local Open Scope string_scope.

(** ** Values produced by the drivers *)

(** The dynamic types a driver hands to [Rows.Scan]: int64, float64 (kept as
    its [strconv.FormatFloat(f, 'g', -1, 64)] rendering), bool, []byte,
    string, time.Time (kept as its RFC3339Nano rendering) and NULL. *)
Inductive dval :=
| DInt (z : Z)
| DFloat (repr : string)
| DBool (b : bool)
| DBytes (bs : list Byte.byte)
| DText (s : string)
| DTime (repr : string)
| DNull.

(** Go's [string(b)] on a byte slice: the same bytes, read as a string. *)
Definition bytes_to_string (bs : list Byte.byte) : string :=
  fold_right (fun b s => String (ascii_of_byte b) s) EmptyString bs.

(** [strconv.FormatInt(z, 10)]. *)
Fixpoint N_dec_aux (fuel : nat) (n : N) (acc : string) : string :=
  match fuel with
  | O => acc
  | S f =>
      let acc' := String (ascii_of_nat (48 + N.to_nat (n mod 10)%N)%nat) acc in
      if (n <? 10)%N then acc' else N_dec_aux f (n / 10)%N acc'
  end.

Definition FormatInt (z : Z) : string :=
  if (z <? 0)%Z
  then String "-" (N_dec_aux (S (N.size_nat (Z.to_N (- z)))) (Z.to_N (- z)) "")
  else N_dec_aux (S (N.size_nat (Z.to_N z))) (Z.to_N z) "".

(** [strconv.ParseInt(s, 10, 64)]: an optional sign, then at least one
    decimal digit, within the int64 range. *)
Fixpoint parse_digits (s : string) (acc : Z) : option Z :=
  match s with
  | EmptyString => Some acc
  | String c r =>
      let n := nat_of_ascii c in
      if (48 <=? n)%nat && (n <=? 57)%nat
      then parse_digits r (acc * 10 + Z.of_nat (n - 48)%nat)%Z
      else None
  end.

Definition ParseInt (s : string) : option Z :=
  let '(neg, body) :=
    match s with
    | String c r =>
        if Ascii.eqb c "-" then (true, r)
        else if Ascii.eqb c "+" then (false, r) else (false, s)
    | EmptyString => (false, s)
    end in
  match body with
  | EmptyString => None
  | _ =>
      match parse_digits body 0 with
      | None => None
      | Some m =>
          let z := if neg then (- m)%Z else m in
          if ((- 2 ^ 63 <=? z) && (z <? 2 ^ 63))%Z then Some z else None
      end
  end.

(** [strconv.ParseBool]. *)
Definition ParseBool (s : string) : option bool :=
  if existsb (String.eqb s) ["1"; "t"; "T"; "TRUE"; "true"; "True"] then Some true
  else if existsb (String.eqb s) ["0"; "f"; "F"; "FALSE"; "false"; "False"] then Some false
  else None.

(** [asString] of database/sql: the text rendering of a non-NULL value. *)
Definition asString (v : dval) : string :=
  match v with
  | DInt z => FormatInt z
  | DFloat r => r
  | DBool b => if b then "true" else "false"
  | DBytes bs => bytes_to_string bs
  | DText s => s
  | DTime r => r
  | DNull => "<nil>"
  end.

(** ** [convertAssign]: one column into one Scan destination *)

(** Destination [*string]. *)
Definition scan_string (v : dval) : option string :=
  match v with
  | DNull => None
  | _ => Some (asString v)
  end.

(** Destination [*sql.NullString]. *)
Record NullString := { ns_String : string; ns_Valid : bool }.

Definition scan_NullString (v : dval) : option NullString :=
  match v with
  | DNull => Some {| ns_String := ""; ns_Valid := false |}
  | _ => option_map (fun s => {| ns_String := s; ns_Valid := true |}) (scan_string v)
  end.

(** Destinations [*int] and [*int64] (64-bit). A time value renders with
    separators and never parses. *)
Definition scan_int (v : dval) : option Z :=
  match v with
  | DNull => None
  | DInt z => Some z
  | DTime _ => None
  | _ => ParseInt (asString v)
  end.

(** Destination [*bool], through [driver.Bool.ConvertValue]. *)
Definition scan_bool (v : dval) : option bool :=
  match v with
  | DBool b => Some b
  | DText s => ParseBool s
  | DBytes bs => ParseBool (bytes_to_string bs)
  | DInt z => if (z =? 1)%Z then Some true else if (z =? 0)%Z then Some false else None
  | _ => None
  end.

(** Destination [*interface{}]: the value is stored as it is ([]byte is
    cloned), so this conversion never fails. *)
Definition scan_any (v : dval) : option dval := Some v.

(** [Rows.Scan(dest...)] fails when the number of destinations differs from
    the number of result columns. *)
Definition Scan_any (columnNames : list string) (r : list dval) : option (list dval) :=
  if Nat.eqb (length r) (length columnNames) then mapM scan_any r else None.

(** ** Data model (the Go structs) *)

(** [Connection]: a saved profile; [ID] is the uint primary key that the
    store assigns. [Type] is a keyword of Rocq, hence [Type_]. *)
Record Connection := {
  ID : nat;
  Name : string;
  Type_ : string;
  DSN : string;
  CreatedAt : Z;
  UpdatedAt : Z
}.

(** The zero value of [Connection], what [var connection Connection] holds
    before a query fills it. *)
Definition zero_Connection : Connection :=
  {| ID := 0; Name := ""; Type_ := ""; DSN := ""; CreatedAt := 0; UpdatedAt := 0 |}.

Record TableInfo := {
  ti_Name : string;
  ti_RowCount : Z;
  ti_Schema : string
}.

Record ColumnInfo := {
  ci_Name : string;
  ci_Type : string;
  ci_Nullable : bool;
  ci_DefaultValue : string;
  ci_IsPrimaryKey : bool
}.

Record TableData := {
  td_Columns : list ColumnInfo;
  td_Rows : list (gmap string dval);
  td_Total : Z
}.

(** The two dialects the [switch connection.Type] statements accept. *)
Inductive Dialect := Postgres | SQLite.

Definition dialect_of (t : string) : option Dialect :=
  if String.eqb t "postgres" then Some Postgres
  else if String.eqb t "sqlite" then Some SQLite
  else None.

(** ** The outside world *)

(** A table of a live backend: its column names and its rows. *)
Record table := { t_columns : list string; t_rows : list (list dval) }.

(** A live backend, as seen through the queries the code sends to it.
    [be_table name] resolves a table name spliced into SQL text ([None]
    when the text does not name a readable table: the statement fails);
    [be_list_tables d] and [be_columns d name] are the results of the
    dialect-[d] catalog queries of [GetTables] and [getColumnInfo]
    ([None]: the query fails). *)
Record Backend := {
  be_table : string -> option table;
  be_list_tables : Dialect -> option (list (list dval));
  be_columns : Dialect -> string -> option (list (list dval))
}.

(** The environment: whether [gorm.Open] of a DSN succeeds, whether a ping
    of it succeeds, the backend behind it, whether the config store answers,
    and the clock. *)
Record Env := {
  env_open : string -> string -> bool;
  env_ping : string -> string -> bool;
  env_backend : string -> string -> Backend;
  env_store_ok : bool;
  env_now : Z
}.

(** A [*gorm.DB] opened by this program: a fresh number, and the type and
    DSN it was opened with. *)
Record handle := { h_id : nat; h_type : string; h_dsn : string }.

Definition backend_of (env : Env) (h : handle) : Backend :=
  env_backend env (h_type h) (h_dsn h).

(** ** Program state *)

(** [App]: the rows of the [connections] table of [config.db] (with the
    next AUTOINCREMENT value), [activeDB] ([None] is Go's nil) and
    [activeConnID]; [open_handles] and [next_handle] record which handles
    were opened and are not closed yet. *)
Record App := {
  configDB : list Connection;
  next_id : nat;
  activeDB : option handle;
  activeConnID : nat;
  open_handles : list nat;
  next_handle : nat
}.

Definition set_active (a : App) (db : option handle) (id : nat) : App :=
  {| configDB := configDB a; next_id := next_id a; activeDB := db; activeConnID := id;
     open_handles := open_handles a; next_handle := next_handle a |}.

Definition set_store (a : App) (cs : list Connection) (n : nat) : App :=
  {| configDB := cs; next_id := n; activeDB := activeDB a; activeConnID := activeConnID a;
     open_handles := open_handles a; next_handle := next_handle a |}.

Definition set_handles (a : App) (hs : list nat) (n : nat) : App :=
  {| configDB := configDB a; next_id := next_id a; activeDB := activeDB a;
     activeConnID := activeConnID a; open_handles := hs; next_handle := n |}.

(** [NewApp()] followed by [startup]: [initConfigDB] opens [config.db]
    holding the rows [cs]; nothing is active. *)
Definition startup_state (cs : list Connection) (n : nat) : App :=
  {| configDB := cs; next_id := n; activeDB := None; activeConnID := 0;
     open_handles := []; next_handle := 0 |}.

(** ** Errors *)

(** One constructor per error the methods return. *)
Inductive GoError :=
| ErrStorage                    (* a failing config-store query *)
| ErrRecordNotFound             (* gorm.ErrRecordNotFound, from First *)
| ErrSaveConnection             (* "failed to save connection" *)
| ErrGetConnections             (* "failed to get connections" *)
| ErrDeleteConnection           (* "failed to delete connection" *)
| ErrConnectionNotFound         (* "connection not found" *)
| ErrUnsupportedType (t : string) (* "unsupported database type: %s" *)
| ErrFailedToConnect            (* "failed to connect (to database)" *)
| ErrUnderlyingDB               (* "failed to get underlying sql.DB" *)
| ErrPing                       (* "failed to ping database" *)
| ErrNoActive                   (* "no active database connection" *)
| ErrConnectionInfo             (* "failed to get connection info" *)
| ErrUnsupportedListing (t : string) (* "unsupported database type for table listing" *)
| ErrQueryTables                (* "failed to query tables" *)
| ErrQuery                      (* a failing catalog query in getColumnInfo *)
| ErrColumnInfo (e : GoError)   (* "failed to get column info: %v" *)
| ErrTotalCount                 (* "failed to get total count" *)
| ErrQueryTableData             (* "failed to query table data" *)
| PanicNilPointer.              (* a method call on a nil *gorm.DB *)

(** The error kinds of the specification, by the message of each error. *)
Inductive ErrorKind :=
| ProfileNotFound | UnsupportedBackend | ConnectionUnreachable | NoActiveConnection
| ColumnInfoUnavailable | CountFailed | QueryFailed | StorageError | Panic.

Definition kind (e : GoError) : ErrorKind :=
  match e with
  | ErrStorage | ErrRecordNotFound | ErrSaveConnection | ErrGetConnections
  | ErrDeleteConnection | ErrConnectionInfo => StorageError
  | ErrConnectionNotFound => ProfileNotFound
  | ErrUnsupportedType _ | ErrUnsupportedListing _ => UnsupportedBackend
  | ErrFailedToConnect | ErrUnderlyingDB | ErrPing => ConnectionUnreachable
  | ErrNoActive => NoActiveConnection
  | ErrColumnInfo _ => ColumnInfoUnavailable
  | ErrTotalCount => CountFailed
  | ErrQuery | ErrQueryTables | ErrQueryTableData => QueryFailed
  | PanicNilPointer => Panic
  end.

Inductive result (A : Type) := Ok (x : A) | Err (e : GoError).
Arguments Ok {A} x.
Arguments Err {A} e.

(** ** GORM over [config.db] *)

(** [configDB.Find(&connection, id)]: GORM's [Find] reports no error when
    no row matches; [connection] then keeps its zero value. *)
Definition store_Find (env : Env) (a : App) (id : nat) : result Connection :=
  if env_store_ok env then
    match List.find (fun c => Nat.eqb (ID c) id) (configDB a) with
    | Some c => Ok c
    | None => Ok zero_Connection
    end
  else Err ErrStorage.

(** [configDB.First(&connection, id)]: no matching row is
    [gorm.ErrRecordNotFound]. *)
Definition store_First (env : Env) (a : App) (id : nat) : result Connection :=
  if env_store_ok env then
    match List.find (fun c => Nat.eqb (ID c) id) (configDB a) with
    | Some c => Ok c
    | None => Err ErrRecordNotFound
    end
  else Err ErrStorage.

(** ** The handles *)

(** [gorm.Open(dialector.Open(dsn), &gorm.Config{})]: on success a new
    handle is open. *)
Definition gorm_Open (env : Env) (dbType dsn : string) (a : App) : option handle * App :=
  if env_open env dbType dsn then
    let h := {| h_id := next_handle a; h_type := dbType; h_dsn := dsn |} in
    (Some h, set_handles a (open_handles a ++ [h_id h]) (S (next_handle a)))
  else (None, a).

(** [db.DB()]: the postgres and sqlite dialectors install a [*sql.DB] as the
    connection pool, which [DB()] returns. *)
Definition gorm_DB (db : handle) : option handle := Some db.

Definition Ping (env : Env) (sqlDB : handle) : bool :=
  env_ping env (h_type sqlDB) (h_dsn sqlDB).

(** [sqlDB.Close()]. *)
Definition sql_Close (sqlDB : handle) (a : App) : App :=
  set_handles a (List.filter (fun x => negb (Nat.eqb x (h_id sqlDB))) (open_handles a))
    (next_handle a).

(** ** The connection store methods *)

(** [saveConnection(name, dbType, dsn)]: [Create] takes the next
    AUTOINCREMENT id and stamps both times. *)
Definition saveConnection (env : Env) (name dbType dsn : string) (a : App) : result unit * App :=
  if env_store_ok env then
    let conn := {| ID := next_id a; Name := name; Type_ := dbType; DSN := dsn;
                   CreatedAt := env_now env; UpdatedAt := env_now env |} in
    (Ok tt, set_store a (configDB a ++ [conn]) (S (next_id a)))
  else (Err ErrSaveConnection, a).

(** [GetConnections()]. *)
Definition GetConnections (env : Env) (a : App) : result (list Connection) :=
  if env_store_ok env then Ok (configDB a) else Err ErrGetConnections.

(** [DeleteConnection(id)]. *)
Definition DeleteConnection (env : Env) (id : nat) (a : App) : result unit * App :=
  if env_store_ok env then
    let a1 := set_store a (List.filter (fun c => negb (Nat.eqb (ID c) id)) (configDB a))
                (next_id a) in
    let a2 := if Nat.eqb (activeConnID a1) id then set_active a1 None 0 else a1 in
    (Ok tt, a2)
  else (Err ErrDeleteConnection, a).

(** ** Connecting *)

(** [ConnectToDatabase(id)]. *)
Definition ConnectToDatabase (env : Env) (id : nat) (a : App) : result unit * App :=
  match store_Find env a id with
  | Err _ => (Err ErrConnectionNotFound, a)
  | Ok connection =>
      match dialect_of (Type_ connection) with
      | None => (Err (ErrUnsupportedType (Type_ connection)), a)
      | Some _ =>
          let '(r, a1) := gorm_Open env (Type_ connection) (DSN connection) a in
          match r with
          | None => (Err ErrFailedToConnect, a1)
          | Some db =>
              match gorm_DB db with
              | None => (Err ErrUnderlyingDB, a1)
              | Some sqlDB =>
                  if negb (Ping env sqlDB) then (Err ErrPing, a1)
                  else (Ok tt, set_active a1 (Some db) id)
              end
          end
      end
  end.

(** [TestConnection(dbType, dsn)]: [defer sqlDB.Close()] runs on both
    outcomes of the ping. *)
Definition TestConnection (env : Env) (dbType dsn : string) (a : App) : result unit * App :=
  match dialect_of dbType with
  | None => (Err (ErrUnsupportedType dbType), a)
  | Some _ =>
      let '(r, a1) := gorm_Open env dbType dsn a in
      match r with
      | None => (Err ErrFailedToConnect, a1)
      | Some db =>
          match gorm_DB db with
          | None => (Err ErrUnderlyingDB, a1)
          | Some sqlDB =>
              let res := if negb (Ping env sqlDB) then Err ErrPing else Ok tt in
              (res, sql_Close sqlDB a1)
          end
      end
  end.

(** ** Queries against the active backend *)

(** The statement "SELECT COUNT(*) FROM <tableName>". *)
Definition count_query (be : Backend) (tableName : string) : option (list (list dval)) :=
  match be_table be tableName with
  | Some tb => Some [[DInt (Z.of_nat (length (t_rows tb)))]]
  | None => None
  end.

(** [QueryRow(q).Scan(&count)] into an int64: the statement must succeed,
    return a row, and that row must have one convertible column. *)
Definition QueryRow_Scan_int (res : option (list (list dval))) : option Z :=
  match res with
  | Some ([v] :: _) => scan_int v
  | _ => None
  end.

(** [SELECT * FROM <tableName> LIMIT <limit> OFFSET <offset>] as each engine
    evaluates it: SQLite reads a negative LIMIT as no limit and a negative
    OFFSET as 0; PostgreSQL rejects negative values. *)
Definition select_page (d : Dialect) (tb : table) (limit offset : Z)
  : option (list string * list (list dval)) :=
  match d with
  | SQLite =>
      let rest := drop (Z.to_nat offset) (t_rows tb) in
      Some (t_columns tb, if (limit <? 0)%Z then rest else take (Z.to_nat limit) rest)
  | Postgres =>
      if ((limit <? 0) || (offset <? 0))%Z then None
      else Some (t_columns tb, take (Z.to_nat limit) (drop (Z.to_nat offset) (t_rows tb)))
  end.

Definition data_query (env : Env) (sqlDB : handle) (tableName : string) (limit offset : Z)
  : option (list string * list (list dval)) :=
  match dialect_of (h_type sqlDB), be_table (backend_of env sqlDB) tableName with
  | Some d, Some tb => select_page d tb limit offset
  | _, _ => None
  end.

(** ** [GetTables] *)

(** [rows.Scan(&tableName)]. *)
Definition scan_table_name (r : list dval) : option string :=
  match r with
  | [v] => scan_string v
  | _ => None
  end.

(** The [for rows.Next()] loop of [GetTables]: a row whose name does not
    scan is skipped; a failing count becomes 0. *)
Fixpoint tables_loop (be : Backend) (rows : list (list dval)) : list TableInfo :=
  match rows with
  | [] => []
  | r :: rs =>
      match scan_table_name r with
      | None => tables_loop be rs
      | Some tableName =>
          let count :=
            match QueryRow_Scan_int (count_query be tableName) with
            | Some c => c
            | None => 0%Z
            end in
          {| ti_Name := tableName; ti_RowCount := count; ti_Schema := "" |}
            :: tables_loop be rs
      end
  end.

(** [GetTables()]: reads the state, changes nothing. *)
Definition GetTables (env : Env) (a : App) : result (list TableInfo) :=
  match activeDB a with
  | None => Err ErrNoActive
  | Some db =>
      match gorm_DB db with
      | None => Err ErrUnderlyingDB
      | Some sqlDB =>
          match store_First env a (activeConnID a) with
          | Err _ => Err ErrConnectionInfo
          | Ok connection =>
              match dialect_of (Type_ connection) with
              | None => Err (ErrUnsupportedListing (Type_ connection))
              | Some d =>
                  match be_list_tables (backend_of env sqlDB) d with
                  | None => Err ErrQueryTables
                  | Some rows => Ok (tables_loop (backend_of env sqlDB) rows)
                  end
              end
          end
      end
  end.

(** ** [getColumnInfo] *)

(** [rows.Scan(&col.Name, &col.Type, &nullable, &defaultVal, &col.IsPrimaryKey)]
    and the fields derived from it, for PostgreSQL. *)
Definition scan_pg_column (r : list dval) : option ColumnInfo :=
  match r with
  | [v1; v2; v3; v4; v5] =>
      match scan_string v1, scan_string v2, scan_NullString v3,
            scan_NullString v4, scan_bool v5 with
      | Some name, Some ty, Some nullable, Some defaultVal, Some isPrimary =>
          Some {| ci_Name := name; ci_Type := ty;
                  ci_Nullable := String.eqb (ns_String nullable) "YES";
                  ci_DefaultValue := if ns_Valid defaultVal then ns_String defaultVal else "";
                  ci_IsPrimaryKey := isPrimary |}
      | _, _, _, _, _ => None
      end
  | _ => None
  end.

(** [rows.Scan(&cid, &col.Name, &col.Type, &notNull, &defaultVal, &pk)] and
    the fields derived from it, for SQLite's [PRAGMA table_info]. *)
Definition scan_sqlite_column (r : list dval) : option ColumnInfo :=
  match r with
  | [v1; v2; v3; v4; v5; v6] =>
      match scan_int v1, scan_string v2, scan_string v3, scan_int v4,
            scan_NullString v5, scan_int v6 with
      | Some _, Some name, Some ty, Some notNull, Some defaultVal, Some pk =>
          Some {| ci_Name := name; ci_Type := ty;
                  ci_Nullable := (notNull =? 0)%Z;
                  ci_DefaultValue := if ns_Valid defaultVal then ns_String defaultVal else "";
                  ci_IsPrimaryKey := (pk =? 1)%Z |}
      | _, _, _, _, _, _ => None
      end
  | _ => None
  end.

(** The [for rows.Next()] loops of [getColumnInfo]: a row that does not
    scan is skipped. *)
Fixpoint columns_loop (scan : list dval -> option ColumnInfo) (rows : list (list dval))
  : list ColumnInfo :=
  match rows with
  | [] => []
  | r :: rs =>
      match scan r with
      | None => columns_loop scan rs
      | Some col => col :: columns_loop scan rs
      end
  end.

Definition scan_column (d : Dialect) : list dval -> option ColumnInfo :=
  match d with
  | Postgres => scan_pg_column
  | SQLite => scan_sqlite_column
  end.

(** [getColumnInfo(tableName)]. *)
Definition getColumnInfo (env : Env) (a : App) (tableName : string) : result (list ColumnInfo) :=
  match activeDB a with
  | None => Err PanicNilPointer
  | Some db =>
      match gorm_DB db with
      | None => Err ErrUnderlyingDB
      | Some sqlDB =>
          match store_First env a (activeConnID a) with
          | Err e => Err e
          | Ok connection =>
              match dialect_of (Type_ connection) with
              | None => Err (ErrUnsupportedType (Type_ connection))
              | Some d =>
                  match be_columns (backend_of env sqlDB) d tableName with
                  | None => Err ErrQuery
                  | Some rows => Ok (columns_loop (scan_column d) rows)
                  end
              end
          end
      end
  end.

(** ** [GetTableData] *)

(** The value stored for one column: []byte becomes a string, NULL stays an
    explicit nil, anything else is kept. *)
Definition row_value (v : dval) : dval :=
  match v with
  | DNull => DNull
  | DBytes bs => DText (bytes_to_string bs)
  | _ => v
  end.

(** [for i, colName := range columnNames { row[colName] = ... }]. *)
Fixpoint fill_row (cols : list string) (values : list dval) (row : gmap string dval)
  : gmap string dval :=
  match cols, values with
  | c :: cs, v :: vs => fill_row cs vs (<[c := row_value v]> row)
  | _, _ => row
  end.

(** The [for rows.Next()] loop of [GetTableData]: a row that does not scan
    is skipped. *)
Fixpoint rows_loop (columnNames : list string) (rows : list (list dval))
  : list (gmap string dval) :=
  match rows with
  | [] => []
  | r :: rs =>
      match Scan_any columnNames r with
      | None => rows_loop columnNames rs
      | Some values => fill_row columnNames values ∅ :: rows_loop columnNames rs
      end
  end.

(** [GetTableData(tableName, offset, limit)]. [rows.Columns()] fails only on
    closed rows, so its error branch is not reached. *)
Definition GetTableData (env : Env) (a : App) (tableName : string) (offset limit : Z)
  : result TableData :=
  match activeDB a with
  | None => Err ErrNoActive
  | Some db =>
      match gorm_DB db with
      | None => Err ErrUnderlyingDB
      | Some sqlDB =>
          match getColumnInfo env a tableName with
          | Err e => Err (ErrColumnInfo e)
          | Ok columns =>
              match QueryRow_Scan_int (count_query (backend_of env sqlDB) tableName) with
              | None => Err ErrTotalCount
              | Some total =>
                  match data_query env sqlDB tableName limit offset with
                  | None => Err ErrQueryTableData
                  | Some (columnNames, rows) =>
                      Ok {| td_Columns := columns; td_Rows := rows_loop columnNames rows;
                            td_Total := total |}
                  end
              end
          end
      end
  end.

(** ** Operation sequences *)

Inductive Op :=
| OpConnect (id : nat)
| OpDelete (id : nat)
| OpTest (dbType dsn : string)
| OpListTables
| OpGetPage (tableName : string) (offset limit : Z)
| OpSave (name dbType dsn : string)
| OpList.

(** The state after one public operation; the readers leave it as it is. *)
Definition exec (env : Env) (op : Op) (a : App) : App :=
  match op with
  | OpConnect id => snd (ConnectToDatabase env id a)
  | OpDelete id => snd (DeleteConnection env id a)
  | OpTest t dsn => snd (TestConnection env t dsn a)
  | OpSave n t dsn => snd (saveConnection env n t dsn a)
  | OpListTables | OpGetPage _ _ _ | OpList => a
  end.

(** States reachable after [startup] on a [config.db] whose rows carry
    AUTOINCREMENT ids (>= 1), under any environment at each step. *)
Inductive reachable : App -> Prop :=
| reach_init (cs : list Connection) (n : nat) :
    Forall (fun c => 1 <= ID c) cs -> 1 <= n -> reachable (startup_state cs n)
| reach_step (env : Env) (op : Op) (a : App) :
    reachable a -> reachable (exec env op a).

(** ** A concrete configuration *)

Definition tbl_t : table :=
  {| t_columns := ["id"; "name"];
     t_rows := [[DInt 1; DBytes [Byte.x61]]; [DInt 2; DNull]] |}.

Definition be0 : Backend :=
  {| be_table := fun n => if String.eqb n "t" then Some tbl_t else None;
     be_list_tables := fun _ => Some [[DText "t"]; [DText "bad table"]; [DNull]];
     be_columns := fun d n =>
       match d with
       | SQLite =>
           if String.eqb n "t" then
             Some [[DInt 0; DText "id"; DText "INTEGER"; DInt 1; DNull; DInt 1];
                   [DInt 1; DText "name"; DText "TEXT"; DInt 0; DNull; DInt 0];
                   [DInt 2; DNull; DText "TEXT"; DInt 0; DNull; DInt 0]]
           else Some []
       | Postgres => None
       end |}.

Definition env0 : Env :=
  {| env_open := fun _ _ => true;
     env_ping := fun _ dsn => negb (String.eqb dsn "file:down.db");
     env_backend := fun _ _ => be0;
     env_store_ok := true;
     env_now := 0 |}.

Definition conn1 : Connection :=
  {| ID := 1; Name := "local"; Type_ := "sqlite"; DSN := "file:test.db";
     CreatedAt := 0; UpdatedAt := 0 |}.

Definition conn2 : Connection :=
  {| ID := 2; Name := "down"; Type_ := "sqlite"; DSN := "file:down.db";
     CreatedAt := 0; UpdatedAt := 0 |}.

Definition app0 : App := startup_state [conn1; conn2] 3.

Definition app1 : App := snd (ConnectToDatabase env0 1 app0).

Definition conn3 : Connection :=
  {| ID := 3; Name := "other"; Type_ := "sqlite"; DSN := "file:other.db";
     CreatedAt := 0; UpdatedAt := 0 |}.

Definition app3 : App := snd (ConnectToDatabase env0 1 (startup_state [conn1; conn2; conn3] 4)).

Example tables_of_app1 :
  GetTables env0 app1 =
  Ok [{| ti_Name := "t"; ti_RowCount := 2; ti_Schema := "" |};
      {| ti_Name := "bad table"; ti_RowCount := 0; ti_Schema := "" |}].
Proof. reflexivity. Qed.

Example connect_absent_app1 :
  ConnectToDatabase env0 7 app1 = (Err (ErrUnsupportedType ""), app1).
Proof. reflexivity. Qed.

(** ** Helper lemmas *)

Lemma find_absent (cs : list Connection) (id : nat) :
  (forall c, In c cs -> ID c <> id) ->
  List.find (fun c => Nat.eqb (ID c) id) cs = None.
Proof.
  induction cs as [|c cs IH]; intros Habs; simpl; [reflexivity|].
  destruct (Nat.eqb_spec (ID c) id) as [E|E].
  - exfalso. apply (Habs c); [left; reflexivity | exact E].
  - apply IH. intros c' Hin. apply Habs. right. exact Hin.
Qed.

Lemma find_some_in (cs : list Connection) (id : nat) (c : Connection) :
  List.find (fun c => Nat.eqb (ID c) id) cs = Some c -> In c cs /\ ID c = id.
Proof.
  intros H. pose proof (find_some _ _ H) as [Hin Heq].
  split; [exact Hin | apply Nat.eqb_eq; exact Heq].
Qed.

Lemma filter_app_fresh (l : list nat) (n : nat) :
  ~ In n l -> List.filter (fun x => negb (Nat.eqb x n)) (l ++ [n]) = l.
Proof.
  induction l as [|x l IH]; intros Hn; simpl.
  - rewrite Nat.eqb_refl. reflexivity.
  - destruct (Nat.eqb_spec x n) as [E|E].
    + exfalso. apply Hn. left. exact E.
    + simpl. f_equal. apply IH. intros Hin. apply Hn. right. exact Hin.
Qed.

(** ** Connecting *)

(** C1 (code_bug). For a profile id absent from a reachable store,
    [ConnectToDatabase] does not report "connection not found": GORM's
    [Find] returns no error when no row matches, the zero [Connection]
    has type "", and the call fails with "unsupported database type: ",
    an UnsupportedBackend error. The state is left unchanged. *)
Theorem connect_absent_profile_unsupported (env : Env) (a : App) (id : nat) :
  env_store_ok env = true ->
  (forall c, In c (configDB a) -> ID c <> id) ->
  ConnectToDatabase env id a = (Err (ErrUnsupportedType ""), a) /\
  kind (ErrUnsupportedType "") = UnsupportedBackend.
Proof.
  intros Hok Habs. split; [|reflexivity].
  unfold ConnectToDatabase, store_Find. rewrite Hok, (find_absent _ _ Habs).
  reflexivity.
Qed.

Lemma connect_absent_profile_unsupported_witness :
  env_store_ok env0 = true /\ (forall c, In c (configDB app1) -> ID c <> 7) /\
  ConnectToDatabase env0 7 app1 = (Err (ErrUnsupportedType ""), app1) /\
  kind (ErrUnsupportedType "") = UnsupportedBackend.
Proof.
  assert (Habs : forall c, In c (configDB app1) -> ID c <> 7).
  { intros c Hin. simpl in Hin.
    destruct Hin as [<-|[<-|[]]]; simpl; discriminate. }
  split; [reflexivity|]. split; [exact Habs|].
  apply connect_absent_profile_unsupported; [reflexivity | exact Habs].
Defined.





(** C3 (corrected), counterexample. With profile 1 active on handle 0, a
    successful [ConnectToDatabase 3] makes handle 1 active but handle 0 is
    still open: the previous handle is not closed. *)
Lemma connect_keeps_previous_handle_open :
  activeDB app3 = Some {| h_id := 0; h_type := "sqlite"; h_dsn := "file:test.db" |} /\
  fst (ConnectToDatabase env0 3 app3) = Ok tt /\
  activeDB (snd (ConnectToDatabase env0 3 app3)) =
    Some {| h_id := 1; h_type := "sqlite"; h_dsn := "file:other.db" |} /\
  In 0 (open_handles (snd (ConnectToDatabase env0 3 app3))).
Proof. vm_compute. repeat split; auto. Qed.

(** C3 (corrected), amended. A successful [ConnectToDatabase id] makes the
    handle it just opened (from the stored profile with that id) the active
    one, with [activeConnID = id]; the previously open handles, the former
    active one included, all stay open: the old handle is dropped from
    [activeDB] without being closed. The store is unchanged. *)
Theorem connect_success_replaces_active (env : Env) (a a' : App) (id : nat) :
  ConnectToDatabase env id a = (Ok tt, a') ->
  exists c,
    List.find (fun c => Nat.eqb (ID c) id) (configDB a) = Some c /\
    activeDB a' = Some {| h_id := next_handle a; h_type := Type_ c; h_dsn := DSN c |} /\
    activeConnID a' = id /\
    open_handles a' = (open_handles a ++ [next_handle a])%list /\
    configDB a' = configDB a.
Proof.
  unfold ConnectToDatabase, store_Find.
  destruct (env_store_ok env); [|discriminate].
  destruct (List.find (fun c => Nat.eqb (ID c) id) (configDB a)) as [c|] eqn:Hf.
  - destruct (dialect_of (Type_ c)) as [d|]; [|discriminate].
    unfold gorm_Open. destruct (env_open env (Type_ c) (DSN c)); [|discriminate].
    simpl. destruct (negb (Ping env _)); [discriminate|].
    intros H. injection H as <-. exists c. repeat split; reflexivity.
  - simpl. discriminate.
Qed.

Lemma connect_success_replaces_active_witness :
  exists c,
    List.find (fun c => Nat.eqb (ID c) 3) (configDB app3) = Some c /\
    activeDB (snd (ConnectToDatabase env0 3 app3)) =
      Some {| h_id := next_handle app3; h_type := Type_ c; h_dsn := DSN c |} /\
    activeConnID (snd (ConnectToDatabase env0 3 app3)) = 3 /\
    open_handles (snd (ConnectToDatabase env0 3 app3)) =
      (open_handles app3 ++ [next_handle app3])%list /\
    configDB (snd (ConnectToDatabase env0 3 app3)) = configDB app3.
Proof.
  apply (connect_success_replaces_active env0 app3 _ 3). vm_compute. reflexivity.
Defined.

(** C4. [TestConnection] never changes the active connection (nor the
    store), on every outcome, and no handle it opens is still open when it
    returns: afterwards only handles that were open before are open, and
    when the new handle's number was fresh the open handles are exactly the
    ones before the call. *)
Theorem test_connection_frame (env : Env) (dbType dsn : string) (a : App) :
  let a' := snd (TestConnection env dbType dsn a) in
  activeDB a' = activeDB a /\ activeConnID a' = activeConnID a /\
  configDB a' = configDB a /\
  (forall x, In x (open_handles a') -> In x (open_handles a)) /\
  (~ In (next_handle a) (open_handles a) -> open_handles a' = open_handles a).
Proof.
  unfold TestConnection.
  destruct (dialect_of dbType) as [d|].
  2:{ simpl. repeat split; auto. }
  unfold gorm_Open. destruct (env_open env dbType dsn).
  2:{ simpl. repeat split; auto. }
  simpl. repeat split; try reflexivity.
  - intros x Hx. apply filter_In in Hx as [Hx Hne].
    apply in_app_or in Hx as [Hx|[<-|[]]]; [exact Hx|].
    rewrite Nat.eqb_refl in Hne. discriminate.
  - intros Hfresh. apply filter_app_fresh. exact Hfresh.
Qed.

(** ** Paginated reads *)

Lemma mapM_scan_any (r : list dval) : mapM scan_any r = Some r.
Proof. induction r as [|v r IH]; simpl; [reflexivity|]. rewrite IH. reflexivity. Qed.

Lemma Scan_any_spec (columnNames : list string) (r : list dval) :
  Scan_any columnNames r =
  if Nat.eqb (length r) (length columnNames) then Some r else None.
Proof. unfold Scan_any. rewrite mapM_scan_any. reflexivity. Qed.

Lemma rows_loop_length_le (columnNames : list string) (rows : list (list dval)) :
  length (rows_loop columnNames rows) <= length rows.
Proof.
  induction rows as [|r rs IH]; simpl; [lia|].
  destruct (Scan_any columnNames r); simpl; lia.
Qed.


(** What a successful [GetTableData] is made of. *)
Lemma GetTableData_ok (env : Env) (a : App) (tableName : string) (offset limit : Z)
    (p : TableData) :
  GetTableData env a tableName offset limit = Ok p ->
  exists db columns total columnNames rows,
    activeDB a = Some db /\
    getColumnInfo env a tableName = Ok columns /\
    QueryRow_Scan_int (count_query (backend_of env db) tableName) = Some total /\
    data_query env db tableName limit offset = Some (columnNames, rows) /\
    p = {| td_Columns := columns; td_Rows := rows_loop columnNames rows; td_Total := total |}.
Proof.
  unfold GetTableData.
  destruct (activeDB a) as [db|]; [|discriminate]. simpl.
  destruct (getColumnInfo env a tableName) as [columns|e]; [|discriminate].
  destruct (QueryRow_Scan_int _) as [total|] eqn:Ht; [|discriminate].
  destruct (data_query env db tableName limit offset) as [[columnNames rows]|] eqn:Hq;
    [|discriminate].
  intros H. injection H as <-.
  exists db, columns, total, columnNames, rows. repeat split; assumption.
Qed.





Lemma rows_loop_omap (columnNames : list string) (rows : list (list dval)) :
  rows_loop columnNames rows =
  omap (fun r => (fun values => fill_row columnNames values ∅) <$> Scan_any columnNames r)
    rows.
Proof.
  induction rows as [|r rs IH]; simpl; [reflexivity|].
  destruct (Scan_any columnNames r); simpl; rewrite IH; reflexivity.
Qed.

Lemma row_value_not_bytes (v : dval) (bs : list Byte.byte) : row_value v <> DBytes bs.
Proof. destruct v; discriminate. Qed.

Lemma fill_row_keys (cs : list string) (vs : list dval) (m : gmap string dval) (c : string) :
  length vs = length cs ->
  In c cs \/ is_Some (m !! c) ->
  is_Some (fill_row cs vs m !! c).
Proof.
  revert vs m. induction cs as [|c0 cs IH]; intros vs m Hlen Hc.
  - destruct Hc as [[]|Hm]. destruct vs; exact Hm.
  - destruct vs as [|v vs]; [discriminate|]. simpl in Hlen |- *.
    apply IH; [lia|].
    destruct (decide (c0 = c)) as [<-|Hne].
    + right. rewrite lookup_insert_eq. eexists; reflexivity.
    + destruct Hc as [[E|Hin]|Hm]; [congruence| left; exact Hin|].
      right. rewrite lookup_insert_ne by exact Hne. exact Hm.
Qed.

Lemma fill_row_no_bytes (cs : list string) (vs : list dval) (m : gmap string dval) :
  (forall c v, m !! c = Some v -> forall bs, v <> DBytes bs) ->
  forall c v, fill_row cs vs m !! c = Some v -> forall bs, v <> DBytes bs.
Proof.
  revert vs m. induction cs as [|c0 cs IH]; intros vs m Hm.
  - destruct vs; exact Hm.
  - destruct vs as [|v0 vs]; [exact Hm|]. simpl. apply IH.
    intros c v Hc bs. destruct (decide (c0 = c)) as [<-|Hne].
    + rewrite lookup_insert_eq in Hc. injection Hc as <-. apply row_value_not_bytes.
    + rewrite lookup_insert_ne in Hc by exact Hne. exact (Hm c v Hc bs).
Qed.

Lemma fill_row_notin (cs : list string) (vs : list dval) (m : gmap string dval) (c : string) :
  ~ In c cs -> fill_row cs vs m !! c = m !! c.
Proof.
  revert vs m. induction cs as [|c0 cs IH]; intros vs m Hc.
  - destruct vs; reflexivity.
  - destruct vs as [|v0 vs]; [reflexivity|]. simpl.
    rewrite IH by (intros Hin; apply Hc; right; exact Hin).
    apply lookup_insert_ne. intros E. apply Hc. left. exact E.
Qed.

Lemma fill_row_lookup (cs : list string) (vs : list dval) (m : gmap string dval)
    (i : nat) (c : string) (v : dval) :
  NoDup cs -> cs !! i = Some c -> vs !! i = Some v ->
  fill_row cs vs m !! c = Some (row_value v).
Proof.
  revert vs m i. induction cs as [|c0 cs IH]; intros vs m i Hnd Hc Hv; [discriminate|].
  destruct vs as [|v0 vs]; [discriminate|].
  inversion Hnd as [|? ? Hnin Hnd']; subst. simpl.
  destruct i as [|j]; simpl in Hc, Hv.
  - injection Hc as <-. injection Hv as <-.
    rewrite fill_row_notin by (rewrite <- list_elem_of_In; exact Hnin).
    apply lookup_insert_eq.
  - exact (IH vs _ j Hnd' Hc Hv).
Qed.

(** C6. Every page [GetTableData] returns holds one mapping per row of the
    SELECT result that scans, in order; a row that does not scan is skipped
    without failing the page. A decoded mapping has a key for every result
    column, holds no raw byte values ([]byte becomes a string), and with
    distinct column names maps each column to its converted value: NULL to
    an explicit NULL entry, bytes to the text they spell. *)
Theorem get_page_row_decoding (env : Env) (a : App) (tableName : string)
    (offset limit : Z) (p : TableData) :
  GetTableData env a tableName offset limit = Ok p ->
  exists db columnNames rows,
    activeDB a = Some db /\
    data_query env db tableName limit offset = Some (columnNames, rows) /\
    td_Rows p =
      omap (fun r => (fun values => fill_row columnNames values ∅)
                       <$> Scan_any columnNames r) rows /\
    (forall r values, Scan_any columnNames r = Some values ->
       values = r /\
       (forall c, In c columnNames -> is_Some (fill_row columnNames values ∅ !! c)) /\
       (forall c v, fill_row columnNames values ∅ !! c = Some v ->
                    forall bs, v <> DBytes bs) /\
       (NoDup columnNames -> forall i c v,
          columnNames !! i = Some c -> values !! i = Some v ->
          fill_row columnNames values ∅ !! c = Some (row_value v) /\
          (v = DNull -> fill_row columnNames values ∅ !! c = Some DNull) /\
          (forall bs, v = DBytes bs ->
             fill_row columnNames values ∅ !! c = Some (DText (bytes_to_string bs))))).
Proof.
  intros Hp.
  apply GetTableData_ok in Hp
    as (db & columns & total & columnNames & rows & Hdb & _ & _ & Hq & ->).
  exists db, columnNames, rows. split; [exact Hdb|]. split; [exact Hq|].
  split; [apply rows_loop_omap|].
  intros r values Hs. rewrite Scan_any_spec in Hs.
  destruct (Nat.eqb_spec (length r) (length columnNames)) as [Hlen|]; [|discriminate].
  injection Hs as <-. split; [reflexivity|]. split; [|split].
  - intros c Hc. apply fill_row_keys; [exact Hlen | left; exact Hc].
  - apply fill_row_no_bytes. intros c v Hc. rewrite lookup_empty in Hc. discriminate.
  - intros Hnd i c v Hc Hv.
    pose proof (fill_row_lookup columnNames r ∅ i c v Hnd Hc Hv) as E.
    split; [exact E|]. split.
    + intros ->. exact E.
    + intros bs ->. exact E.
Qed.

Lemma get_page_row_decoding_witness :
  exists p, GetTableData env0 app1 "t" 0 2 = Ok p /\
  exists db columnNames rows,
    activeDB app1 = Some db /\
    data_query env0 db "t" 2 0 = Some (columnNames, rows) /\
    td_Rows p =
      omap (fun r => (fun values => fill_row columnNames values ∅)
                       <$> Scan_any columnNames r) rows /\
    (forall r values, Scan_any columnNames r = Some values ->
       values = r /\
       (forall c, In c columnNames -> is_Some (fill_row columnNames values ∅ !! c)) /\
       (forall c v, fill_row columnNames values ∅ !! c = Some v ->
                    forall bs, v <> DBytes bs) /\
       (NoDup columnNames -> forall i c v,
          columnNames !! i = Some c -> values !! i = Some v ->
          fill_row columnNames values ∅ !! c = Some (row_value v) /\
          (v = DNull -> fill_row columnNames values ∅ !! c = Some DNull) /\
          (forall bs, v = DBytes bs ->
             fill_row columnNames values ∅ !! c = Some (DText (bytes_to_string bs))))).
Proof.
  eexists. split; [vm_compute; reflexivity|].
  apply (get_page_row_decoding env0 app1 "t" 0 2). vm_compute. reflexivity.
Defined.

(** ** Table listing *)

Lemma tables_loop_names (be : Backend) (rows : list (list dval)) :
  map ti_Name (tables_loop be rows) = omap scan_table_name rows.
Proof.
  induction rows as [|r rs IH]; simpl; [reflexivity|].
  destruct (scan_table_name r); simpl; rewrite IH; reflexivity.
Qed.

Lemma tables_loop_counts (be : Backend) (rows : list (list dval)) :
  Forall (fun ti => ti_RowCount ti =
            match QueryRow_Scan_int (count_query be (ti_Name ti)) with
            | Some c => c
            | None => 0%Z
            end) (tables_loop be rows).
Proof.
  induction rows as [|r rs IH]; simpl; [constructor|].
  destruct (scan_table_name r); [constructor; [reflexivity | exact IH] | exact IH].
Qed.

(** C7. A successful [GetTables] lists, in the order the backend returned
    them, one [TableInfo] for every name the list-tables query returned
    (that scans as a string): the names of the result are exactly those
    names, in that order, and each row count is the result of its count
    query, or 0 when that query fails. *)
Theorem get_tables_listing (env : Env) (a : App) (ts : list TableInfo) :
  GetTables env a = Ok ts ->
  exists db d rows,
    activeDB a = Some db /\
    be_list_tables (backend_of env db) d = Some rows /\
    map ti_Name ts = omap scan_table_name rows /\
    Forall (fun ti => ti_RowCount ti =
              match QueryRow_Scan_int (count_query (backend_of env db) (ti_Name ti)) with
              | Some c => c
              | None => 0%Z
              end) ts.
Proof.
  unfold GetTables.
  destruct (activeDB a) as [db|]; [|discriminate]. simpl.
  destruct (store_First env a (activeConnID a)) as [connection|]; [|discriminate].
  destruct (dialect_of (Type_ connection)) as [d|]; [|discriminate].
  destruct (be_list_tables (backend_of env db) d) as [rows|] eqn:Hl; [|discriminate].
  intros H. injection H as <-.
  exists db, d, rows. split; [reflexivity|]. split; [exact Hl|].
  split; [apply tables_loop_names | apply tables_loop_counts].
Qed.

Lemma get_tables_listing_witness :
  exists ts, GetTables env0 app1 = Ok ts /\
  exists db d rows,
    activeDB app1 = Some db /\
    be_list_tables (backend_of env0 db) d = Some rows /\
    map ti_Name ts = omap scan_table_name rows /\
    Forall (fun ti => ti_RowCount ti =
              match QueryRow_Scan_int (count_query (backend_of env0 db) (ti_Name ti)) with
              | Some c => c
              | None => 0%Z
              end) ts.
Proof.
  eexists. split; [vm_compute; reflexivity|].
  apply get_tables_listing. vm_compute. reflexivity.
Defined.

(** ** Column introspection *)

Lemma columns_loop_omap (scan : list dval -> option ColumnInfo) (rows : list (list dval)) :
  columns_loop scan rows = omap scan rows.
Proof.
  induction rows as [|r rs IH]; simpl; [reflexivity|].
  destruct (scan r); rewrite IH; reflexivity.
Qed.

Lemma scan_pg_column_fields (r : list dval) (col : ColumnInfo) :
  scan_pg_column r = Some col ->
  exists v1 v2 v3 v4 v5 nullable isPrimary,
    r = [v1; v2; v3; v4; v5] /\
    scan_NullString v3 = Some nullable /\ scan_bool v5 = Some isPrimary /\
    ci_Nullable col = String.eqb (ns_String nullable) "YES" /\
    ci_IsPrimaryKey col = isPrimary.
Proof.
  unfold scan_pg_column.
  destruct r as [|v1 [|v2 [|v3 [|v4 [|v5 [|]]]]]]; try discriminate.
  destruct (scan_string v1), (scan_string v2), (scan_NullString v3) as [nullable|] eqn:H3,
    (scan_NullString v4), (scan_bool v5) as [isPrimary|] eqn:H5; try discriminate.
  intros H. injection H as <-.
  exists v1, v2, v3, v4, v5, nullable, isPrimary. repeat split; assumption.
Qed.

Lemma scan_sqlite_column_fields (r : list dval) (col : ColumnInfo) :
  scan_sqlite_column r = Some col ->
  exists v1 v2 v3 v4 v5 v6 notNull pk,
    r = [v1; v2; v3; v4; v5; v6] /\
    scan_int v4 = Some notNull /\ scan_int v6 = Some pk /\
    ci_Nullable col = (notNull =? 0)%Z /\
    ci_IsPrimaryKey col = (pk =? 1)%Z.
Proof.
  unfold scan_sqlite_column.
  destruct r as [|v1 [|v2 [|v3 [|v4 [|v5 [|v6 [|]]]]]]]; try discriminate.
  destruct (scan_int v1), (scan_string v2), (scan_string v3),
    (scan_int v4) as [notNull|] eqn:H4, (scan_NullString v5),
    (scan_int v6) as [pk|] eqn:H6; try discriminate.
  intros H. injection H as <-.
  exists v1, v2, v3, v4, v5, v6, notNull, pk. repeat split; assumption.
Qed.

(** C8. A successful [getColumnInfo] returns, in order, one [ColumnInfo]
    per row of the dialect's column query that scans, skipping the rows
    that do not. For PostgreSQL a column is nullable exactly when
    [is_nullable] reads "YES" and its primary-key flag is the scanned
    boolean; for SQLite it is nullable exactly when [notnull = 0] and a
    primary key exactly when [pk = 1]. *)
Theorem get_column_info_derivation (env : Env) (a : App) (tableName : string)
    (cols : list ColumnInfo) :
  getColumnInfo env a tableName = Ok cols ->
  exists db connection d rows,
    activeDB a = Some db /\
    store_First env a (activeConnID a) = Ok connection /\
    dialect_of (Type_ connection) = Some d /\
    be_columns (backend_of env db) d tableName = Some rows /\
    cols = omap (scan_column d) rows /\
    (d = Postgres ->
       forall r col, scan_column d r = Some col ->
       exists v1 v2 v3 v4 v5 nullable isPrimary,
         r = [v1; v2; v3; v4; v5] /\
         scan_NullString v3 = Some nullable /\ scan_bool v5 = Some isPrimary /\
         ci_Nullable col = String.eqb (ns_String nullable) "YES" /\
         ci_IsPrimaryKey col = isPrimary) /\
    (d = SQLite ->
       forall r col, scan_column d r = Some col ->
       exists v1 v2 v3 v4 v5 v6 notNull pk,
         r = [v1; v2; v3; v4; v5; v6] /\
         scan_int v4 = Some notNull /\ scan_int v6 = Some pk /\
         ci_Nullable col = (notNull =? 0)%Z /\
         ci_IsPrimaryKey col = (pk =? 1)%Z).
Proof.
  unfold getColumnInfo.
  destruct (activeDB a) as [db|]; [|discriminate]. simpl.
  destruct (store_First env a (activeConnID a)) as [connection|] eqn:Hc; [|discriminate].
  destruct (dialect_of (Type_ connection)) as [d|] eqn:Hd; [|discriminate].
  destruct (be_columns (backend_of env db) d tableName) as [rows|] eqn:Hr; [|discriminate].
  intros H. injection H as <-.
  exists db, connection, d, rows. repeat (split; [reflexivity || assumption|]).
  split; [apply columns_loop_omap|]. split.
  - intros -> r col. apply scan_pg_column_fields.
  - intros -> r col. apply scan_sqlite_column_fields.
Qed.

Lemma get_column_info_derivation_witness :
  exists cols, getColumnInfo env0 app1 "t" = Ok cols /\
  exists db connection d rows,
    activeDB app1 = Some db /\
    store_First env0 app1 (activeConnID app1) = Ok connection /\
    dialect_of (Type_ connection) = Some d /\
    be_columns (backend_of env0 db) d "t" = Some rows /\
    cols = omap (scan_column d) rows /\
    (d = Postgres ->
       forall r col, scan_column d r = Some col ->
       exists v1 v2 v3 v4 v5 nullable isPrimary,
         r = [v1; v2; v3; v4; v5] /\
         scan_NullString v3 = Some nullable /\ scan_bool v5 = Some isPrimary /\
         ci_Nullable col = String.eqb (ns_String nullable) "YES" /\
         ci_IsPrimaryKey col = isPrimary) /\
    (d = SQLite ->
       forall r col, scan_column d r = Some col ->
       exists v1 v2 v3 v4 v5 v6 notNull pk,
         r = [v1; v2; v3; v4; v5; v6] /\
         scan_int v4 = Some notNull /\ scan_int v6 = Some pk /\
         ci_Nullable col = (notNull =? 0)%Z /\
         ci_IsPrimaryKey col = (pk =? 1)%Z).
Proof.
  eexists. split; [vm_compute; reflexivity|].
  apply get_column_info_derivation. vm_compute. reflexivity.
Defined.

(** ** Deleting a profile *)

(** C9. After a successful [DeleteConnection id]: if [id] was the active
    profile's id, [GetTables] fails with "no active database connection"
    (NoActiveConnection); and [GetConnections] never lists a profile with
    that id. *)
Theorem delete_connection_clears (env env' : Env) (a a' : App) (id : nat) :
  DeleteConnection env id a = (Ok tt, a') ->
  (activeConnID a = id ->
     GetTables env' a' = Err ErrNoActive /\ kind ErrNoActive = NoActiveConnection) /\
  (forall l, GetConnections env' a' = Ok l -> forall c, In c l -> ID c <> id).
Proof.
  unfold DeleteConnection.
  destruct (env_store_ok env); [|discriminate].
  intros H. injection H as <-. simpl. split.
  - intros ->. rewrite Nat.eqb_refl. split; reflexivity.
  - intros l Hl c Hc.
    assert (Hcfg : configDB (if Nat.eqb (activeConnID a) id
                             then set_active (set_store a
                                    (List.filter (fun c => negb (Nat.eqb (ID c) id))
                                       (configDB a)) (next_id a)) None 0
                             else set_store a
                                    (List.filter (fun c => negb (Nat.eqb (ID c) id))
                                       (configDB a)) (next_id a))
                   = List.filter (fun c => negb (Nat.eqb (ID c) id)) (configDB a)).
    { destruct (Nat.eqb (activeConnID a) id); reflexivity. }
    unfold GetConnections in Hl. rewrite Hcfg in Hl.
    destruct (env_store_ok env'); [|discriminate]. injection Hl as <-.
    apply filter_In in Hc as [_ Hne]. intros E. rewrite E, Nat.eqb_refl in Hne.
    discriminate.
Qed.

Lemma delete_connection_clears_witness :
  DeleteConnection env0 1 app1 = (Ok tt, snd (DeleteConnection env0 1 app1)) /\
  (activeConnID app1 = 1 ->
     GetTables env0 (snd (DeleteConnection env0 1 app1)) = Err ErrNoActive /\
     kind ErrNoActive = NoActiveConnection) /\
  (forall l, GetConnections env0 (snd (DeleteConnection env0 1 app1)) = Ok l ->
             forall c, In c l -> ID c <> 1).
Proof.
  assert (H : DeleteConnection env0 1 app1 = (Ok tt, snd (DeleteConnection env0 1 app1))).
  { vm_compute. reflexivity. }
  split; [exact H|]. exact (delete_connection_clears env0 env0 app1 _ 1 H).
Defined.

(** ** The active connection invariant *)

Definition active_inv (a : App) : Prop :=
  (activeDB a = None <-> activeConnID a = 0) /\
  Forall (fun c => 1 <= ID c) (configDB a) /\ 1 <= next_id a.

Lemma active_inv_transfer (a a' : App) :
  activeDB a' = activeDB a -> activeConnID a' = activeConnID a ->
  configDB a' = configDB a -> next_id a' = next_id a ->
  active_inv a -> active_inv a'.
Proof. unfold active_inv. intros -> -> -> ->. tauto. Qed.

Lemma connect_active_inv (env : Env) (id : nat) (a : App) :
  active_inv a -> active_inv (snd (ConnectToDatabase env id a)).
Proof.
  intros Hinv. unfold ConnectToDatabase, store_Find.
  destruct (env_store_ok env); [|exact Hinv].
  destruct (List.find (fun c => Nat.eqb (ID c) id) (configDB a)) as [c|] eqn:Hf.
  2:{ exact Hinv. }
  destruct (dialect_of (Type_ c)); [|exact Hinv].
  unfold gorm_Open. destruct (env_open env (Type_ c) (DSN c)); [|exact Hinv].
  simpl. destruct (negb (Ping env _)); simpl.
  - apply (active_inv_transfer a); try reflexivity. exact Hinv.
  - destruct Hinv as (_ & Hids & Hn).
    apply find_some_in in Hf as [Hin Hid].
    pose proof (proj1 (List.Forall_forall _ _) Hids c Hin) as Hc. cbv beta in Hc.
    unfold active_inv. simpl. split; [|split; assumption].
    split; intros E; [discriminate | exfalso; lia].
Qed.

Lemma delete_active_inv (env : Env) (id : nat) (a : App) :
  active_inv a -> active_inv (snd (DeleteConnection env id a)).
Proof.
  intros (Hact & Hids & Hn). unfold DeleteConnection.
  destruct (env_store_ok env); [|split; [exact Hact | split; assumption]].
  assert (Hids' : Forall (fun c => 1 <= ID c)
                    (List.filter (fun c => negb (Nat.eqb (ID c) id)) (configDB a))).
  { apply List.Forall_forall. intros c Hc. apply filter_In in Hc as [Hc _].
    exact (proj1 (List.Forall_forall _ _) Hids c Hc). }
  simpl. destruct (Nat.eqb (activeConnID a) id).
  - unfold active_inv. simpl. split; [tauto | split; assumption].
  - unfold active_inv. simpl. split; [exact Hact | split; assumption].
Qed.

(** [TestConnection] touches only the handle bookkeeping. *)
Lemma TestConnection_state (env : Env) (dbType dsn : string) (a : App) :
  let a' := snd (TestConnection env dbType dsn a) in
  activeDB a' = activeDB a /\ activeConnID a' = activeConnID a /\
  configDB a' = configDB a /\ next_id a' = next_id a.
Proof.
  unfold TestConnection. destruct (dialect_of dbType); [|simpl; auto].
  unfold gorm_Open. destruct (env_open env dbType dsn); simpl; auto.
Qed.

Lemma test_active_inv (env : Env) (dbType dsn : string) (a : App) :
  active_inv a -> active_inv (snd (TestConnection env dbType dsn a)).
Proof.
  pose proof (TestConnection_state env dbType dsn a) as (H1 & H2 & H3 & H4).
  apply active_inv_transfer; assumption.
Qed.

Lemma save_active_inv (env : Env) (name dbType dsn : string) (a : App) :
  active_inv a -> active_inv (snd (saveConnection env name dbType dsn a)).
Proof.
  intros (Hact & Hids & Hn). unfold saveConnection.
  destruct (env_store_ok env); [|split; [exact Hact | split; assumption]].
  unfold active_inv. simpl. split; [exact Hact|]. split; [|lia].
  apply Forall_app. split; [exact Hids|]. constructor; [simpl; exact Hn | constructor].
Qed.

Lemma reachable_active_inv (a : App) : reachable a -> active_inv a.
Proof.
  induction 1 as [cs n Hids Hn | env op a _ IH].
  - unfold active_inv. simpl. split; [tauto | split; assumption].
  - destruct op; simpl.
    + apply connect_active_inv, IH.
    + apply delete_active_inv, IH.
    + apply test_active_inv, IH.
    + exact IH.
    + exact IH.
    + apply save_active_inv, IH.
    + exact IH.
Qed.

(** C10. In every state reachable from [startup] by any sequence of the
    public operations, [activeDB] is nil exactly when [activeConnID] is 0:
    the store only assigns ids >= 1, so a successful connect never stores
    id 0, and the two fields are always set and cleared together. *)
Theorem reachable_active_consistent (a : App) :
  reachable a -> (activeDB a = None <-> activeConnID a = 0).
Proof. intros H. exact (proj1 (reachable_active_inv a H)). Qed.

Lemma reachable_active_consistent_witness :
  reachable app1 /\ (activeDB app1 = None <-> activeConnID app1 = 0).
Proof.
  assert (H : reachable app1).
  { change (reachable (exec env0 (OpConnect 1) app0)).
    apply reach_step. apply reach_init; [repeat constructor | lia]. }
  split; [exact H | exact (reachable_active_consistent app1 H)].
Defined.

(** * Further properties of the code *)

(** ** Lookups in the store *)

Lemma find_app_l (p : Connection -> bool) (l r : list Connection) (c : Connection) :
  List.find p l = Some c -> List.find p (l ++ r) = Some c.
Proof.
  induction l as [|x l IH]; simpl; [discriminate|].
  destruct (p x); [exact id | exact IH].
Qed.

Lemma find_app_none (p : Connection -> bool) (l r : list Connection) :
  List.find p l = None -> List.find p (l ++ r) = List.find p r.
Proof.
  induction l as [|x l IH]; simpl; [reflexivity|].
  destruct (p x); [discriminate | exact IH].
Qed.

Lemma find_filter_other (l : list Connection) (k id : nat) :
  k <> id ->
  List.find (fun c => Nat.eqb (ID c) k)
    (List.filter (fun c => negb (Nat.eqb (ID c) id)) l) =
  List.find (fun c => Nat.eqb (ID c) k) l.
Proof.
  intros Hne. induction l as [|x l IH]; simpl; [reflexivity|].
  destruct (Nat.eqb_spec (ID x) id) as [Ex|Ex]; simpl.
  - destruct (Nat.eqb_spec (ID x) k); [congruence | exact IH].
  - destruct (Nat.eqb (ID x) k); [reflexivity | exact IH].
Qed.

Lemma NoDup_map_filter (l : list Connection) (f : Connection -> bool) :
  List.NoDup (map ID l) -> List.NoDup (map ID (List.filter f l)).
Proof.
  induction l as [|x l IH]; simpl; intros Hnd; [constructor|].
  apply List.NoDup_cons_iff in Hnd as [Hx Hnd].
  destruct (f x); simpl; [|exact (IH Hnd)].
  constructor; [|exact (IH Hnd)].
  intros Hin. apply Hx. apply in_map_iff in Hin as (y & Hy & Hin).
  apply filter_In in Hin as [Hin _]. rewrite <- Hy. apply in_map. exact Hin.
Qed.

Lemma NoDup_snoc (l : list nat) (x : nat) :
  List.NoDup l -> ~ In x l -> List.NoDup (l ++ [x]).
Proof.
  induction l as [|y l IH]; simpl; intros Hnd Hx.
  - constructor; [intros []|constructor].
  - apply List.NoDup_cons_iff in Hnd as [Hy Hnd]. constructor.
    + intros Hin. apply in_app_or in Hin as [Hin|[E|[]]]; [exact (Hy Hin)|].
      apply Hx. left. symmetry. exact E.
    + apply IH; [exact Hnd|]. intros Hin. apply Hx. right. exact Hin.
Qed.

(** [ConnectToDatabase] never writes the store. *)
Lemma ConnectToDatabase_store (env : Env) (id : nat) (a : App) :
  configDB (snd (ConnectToDatabase env id a)) = configDB a /\
  next_id (snd (ConnectToDatabase env id a)) = next_id a.
Proof.
  unfold ConnectToDatabase, store_Find.
  destruct (env_store_ok env); [|auto].
  destruct (List.find _ _) as [c|]; [|simpl; auto].
  destruct (dialect_of (Type_ c)); [|auto].
  unfold gorm_Open. destruct (env_open env (Type_ c) (DSN c)); [|auto].
  simpl. destruct (negb (Ping env _)); simpl; auto.
Qed.

(** ** Id discipline of the store *)

(** Ids are distinct, at least 1 and below the next AUTOINCREMENT value. *)
Definition store_ids_ok (a : App) : Prop :=
  List.NoDup (map ID (configDB a)) /\
  Forall (fun c => 1 <= ID c < next_id a) (configDB a) /\ 1 <= next_id a.

(** X1. Every public operation keeps the store's ids distinct, at least 1
    and below the next id [saveConnection] will hand out. *)
Theorem exec_store_ids_ok (env : Env) (op : Op) (a : App) :
  store_ids_ok a -> store_ids_ok (exec env op a).
Proof.
  unfold store_ids_ok. intros (Hnd & Hrange & Hn).
  destruct op as [id|id|t dsn| |t off lim|n t dsn|]; simpl.
  - destruct (ConnectToDatabase_store env id a) as [-> ->]. repeat split; assumption.
  - unfold DeleteConnection. destruct (env_store_ok env); [|repeat split; assumption].
    simpl. destruct (Nat.eqb (activeConnID a) id); simpl;
      (split; [apply NoDup_map_filter, Hnd|]); (split; [|exact Hn]);
      apply List.Forall_forall; intros c Hc; apply filter_In in Hc as [Hc _];
      exact (proj1 (List.Forall_forall _ _) Hrange c Hc).
  - pose proof (TestConnection_state env t dsn a) as (_ & _ & -> & ->).
    repeat split; assumption.
  - repeat split; assumption.
  - repeat split; assumption.
  - unfold saveConnection. destruct (env_store_ok env); [|repeat split; assumption].
    simpl. split; [|split; [|lia]].
    + rewrite map_app. simpl. apply NoDup_snoc; [exact Hnd|].
      intros Hin. apply in_map_iff in Hin as (c & Hc & Hin).
      pose proof (proj1 (List.Forall_forall _ _) Hrange c Hin) as Hr. cbv beta in Hr. lia.
    + apply Forall_app. split.
      * apply List.Forall_forall. intros c Hc.
        pose proof (proj1 (List.Forall_forall _ _) Hrange c Hc) as Hr. cbv beta in Hr. lia.
      * constructor; [|constructor]. simpl. lia.
  - repeat split; assumption.
Qed.

Lemma exec_store_ids_ok_witness :
  store_ids_ok app0 /\ store_ids_ok (exec env0 (OpSave "x" "mysql" "dsn") app0).
Proof.
  assert (H : store_ids_ok app0).
  { split; [|split].
    - simpl. repeat constructor; simpl; intuition discriminate.
    - repeat constructor; simpl; lia.
    - simpl. lia. }
  split; [exact H | exact (exec_store_ids_ok env0 _ app0 H)].
Defined.

(** ** Saving and deleting profiles *)

Lemma store_ids_fresh (a : App) :
  store_ids_ok a -> forall c, In c (configDB a) -> ID c <> next_id a.
Proof.
  intros (_ & Hrange & _) c Hc.
  pose proof (proj1 (List.Forall_forall _ _) Hrange c Hc) as Hr. cbv beta in Hr. lia.
Qed.

(** X2. With a working store, [saveConnection] appends exactly one profile
    carrying the given name, type and DSN (unvalidated) and the current
    time, under an id no existing profile has; the existing profiles and
    the active connection are untouched. *)
Theorem save_appends_fresh (env : Env) (name dbType dsn : string) (a : App) :
  env_store_ok env = true -> store_ids_ok a ->
  fst (saveConnection env name dbType dsn a) = Ok tt /\
  configDB (snd (saveConnection env name dbType dsn a)) =
    (configDB a ++ [{| ID := next_id a; Name := name; Type_ := dbType; DSN := dsn;
                       CreatedAt := env_now env; UpdatedAt := env_now env |}])%list /\
  (forall c, In c (configDB a) -> ID c <> next_id a) /\
  activeDB (snd (saveConnection env name dbType dsn a)) = activeDB a /\
  activeConnID (snd (saveConnection env name dbType dsn a)) = activeConnID a.
Proof.
  intros Hok Hids. unfold saveConnection. rewrite Hok. simpl.
  split; [reflexivity|]. split; [reflexivity|]. split; [|split; reflexivity].
  apply store_ids_fresh, Hids.
Qed.

Lemma store_ids_ok_app0 : store_ids_ok app0.
Proof.
  split; [|split].
  - simpl. repeat constructor; simpl; intuition discriminate.
  - repeat constructor; simpl; lia.
  - simpl. lia.
Qed.

Lemma save_appends_fresh_witness :
  env_store_ok env0 = true /\ store_ids_ok app0 /\
  fst (saveConnection env0 "x" "mysql" "dsn" app0) = Ok tt /\
  configDB (snd (saveConnection env0 "x" "mysql" "dsn" app0)) =
    (configDB app0 ++ [{| ID := next_id app0; Name := "x"; Type_ := "mysql"; DSN := "dsn";
                          CreatedAt := env_now env0; UpdatedAt := env_now env0 |}])%list /\
  (forall c, In c (configDB app0) -> ID c <> next_id app0) /\
  activeDB (snd (saveConnection env0 "x" "mysql" "dsn" app0)) = activeDB app0 /\
  activeConnID (snd (saveConnection env0 "x" "mysql" "dsn" app0)) = activeConnID app0.
Proof.
  split; [reflexivity|]. split; [exact store_ids_ok_app0|].
  apply save_appends_fresh; [reflexivity | exact store_ids_ok_app0].
Defined.

(** X3. Connecting to a profile just saved: if its type is neither
    "postgres" nor "sqlite" the connect fails with "unsupported database
    type" naming that type and changes nothing; if the type is supported
    and its DSN opens and pings, the connect succeeds and makes the new
    profile, on a new handle for that DSN, the active one. *)
Theorem save_then_connect (env : Env) (name dbType dsn : string) (a : App) :
  env_store_ok env = true -> store_ids_ok a ->
  (dialect_of dbType = None ->
     ConnectToDatabase env (next_id a) (snd (saveConnection env name dbType dsn a)) =
     (Err (ErrUnsupportedType dbType), snd (saveConnection env name dbType dsn a))) /\
  (dialect_of dbType <> None -> env_open env dbType dsn = true ->
   env_ping env dbType dsn = true ->
     fst (ConnectToDatabase env (next_id a) (snd (saveConnection env name dbType dsn a)))
       = Ok tt /\
     activeConnID (snd (ConnectToDatabase env (next_id a)
                         (snd (saveConnection env name dbType dsn a)))) = next_id a /\
     activeDB (snd (ConnectToDatabase env (next_id a)
                     (snd (saveConnection env name dbType dsn a)))) =
       Some {| h_id := next_handle a; h_type := dbType; h_dsn := dsn |}).
Proof.
  intros Hok Hids.
  assert (Hfind : List.find (fun c => Nat.eqb (ID c) (next_id a))
                    (configDB (snd (saveConnection env name dbType dsn a))) =
                  Some {| ID := next_id a; Name := name; Type_ := dbType; DSN := dsn;
                          CreatedAt := env_now env; UpdatedAt := env_now env |}).
  { unfold saveConnection. rewrite Hok. simpl.
    rewrite find_app_none by (apply find_absent, store_ids_fresh, Hids).
    simpl. rewrite Nat.eqb_refl. reflexivity. }
  unfold ConnectToDatabase, store_Find. rewrite Hok, Hfind. simpl.
  split.
  - intros ->. reflexivity.
  - intros Hd Hopen Hping. destruct (dialect_of dbType); [|congruence].
    unfold gorm_Open. rewrite Hopen. unfold Ping. simpl. rewrite Hping. simpl.
    unfold saveConnection. rewrite Hok. simpl. repeat split.
Qed.

Lemma save_then_connect_witness :
  (env_store_ok env0 = true /\ store_ids_ok app0 /\ dialect_of "mysql" = None /\
   ConnectToDatabase env0 (next_id app0) (snd (saveConnection env0 "x" "mysql" "dsn" app0)) =
   (Err (ErrUnsupportedType "mysql"), snd (saveConnection env0 "x" "mysql" "dsn" app0))) /\
  (env_store_ok env0 = true /\ store_ids_ok app0 /\ dialect_of "sqlite" <> None /\
   env_open env0 "sqlite" "file:new.db" = true /\ env_ping env0 "sqlite" "file:new.db" = true /\
   fst (ConnectToDatabase env0 (next_id app0)
          (snd (saveConnection env0 "y" "sqlite" "file:new.db" app0))) = Ok tt /\
   activeConnID (snd (ConnectToDatabase env0 (next_id app0)
                       (snd (saveConnection env0 "y" "sqlite" "file:new.db" app0)))) = next_id app0 /\
   activeDB (snd (ConnectToDatabase env0 (next_id app0)
                   (snd (saveConnection env0 "y" "sqlite" "file:new.db" app0)))) =
     Some {| h_id := next_handle app0; h_type := "sqlite"; h_dsn := "file:new.db" |}).
Proof.
  split.
  - split; [reflexivity|]. split; [exact store_ids_ok_app0|]. split; [reflexivity|].
    exact (proj1 (save_then_connect env0 "x" "mysql" "dsn" app0 eq_refl store_ids_ok_app0)
             eq_refl).
  - assert (Hd : dialect_of "sqlite" <> None) by discriminate.
    split; [reflexivity|]. split; [exact store_ids_ok_app0|]. split; [exact Hd|].
    split; [reflexivity|]. split; [reflexivity|].
    exact (proj2 (save_then_connect env0 "y" "sqlite" "file:new.db" app0 eq_refl
                    store_ids_ok_app0) Hd eq_refl eq_refl).
Defined.

Lemma filter_idem (f : Connection -> bool) (l : list Connection) :
  List.filter f (List.filter f l) = List.filter f l.
Proof.
  induction l as [|x l IH]; simpl; [reflexivity|].
  destruct (f x) eqn:E; simpl; [rewrite E, IH | exact IH]. reflexivity.
Qed.

(** X4. [DeleteConnection] never closes a handle and never opens one: the
    open handles are the same afterwards, even when it clears the active
    connection. It keeps the next id, keeps every profile with another id,
    and when [id] is not the active profile's id it leaves the active
    connection as it was. *)
Theorem delete_connection_frame (env : Env) (id : nat) (a : App) :
  open_handles (snd (DeleteConnection env id a)) = open_handles a /\
  next_handle (snd (DeleteConnection env id a)) = next_handle a /\
  next_id (snd (DeleteConnection env id a)) = next_id a /\
  (forall c, In c (configDB a) -> ID c <> id -> In c (configDB (snd (DeleteConnection env id a)))) /\
  (activeConnID a <> id ->
     activeDB (snd (DeleteConnection env id a)) = activeDB a /\
     activeConnID (snd (DeleteConnection env id a)) = activeConnID a).
Proof.
  unfold DeleteConnection. destruct (env_store_ok env); [|simpl; intuition].
  simpl. do 3 (split; [destruct (Nat.eqb (activeConnID a) id); reflexivity|]). split.
  - intros c Hc Hne.
    assert (Hf : In c (List.filter (fun c => negb (Nat.eqb (ID c) id)) (configDB a))).
    { apply filter_In. split; [exact Hc|].
      destruct (Nat.eqb_spec (ID c) id); [congruence | reflexivity]. }
    destruct (Nat.eqb (activeConnID a) id); exact Hf.
  - intros Hne. destruct (Nat.eqb_spec (activeConnID a) id); [congruence|].
    split; reflexivity.
Qed.

(** X5. Deleting the same id twice is the same as deleting it once: the
    second call succeeds or fails as the first did and changes nothing. *)
Theorem delete_connection_idempotent (env : Env) (id : nat) (a : App) :
  DeleteConnection env id (snd (DeleteConnection env id a)) = DeleteConnection env id a.
Proof.
  destruct a as [cs n act aid hs nh].
  unfold DeleteConnection. destruct (env_store_ok env); simpl; [|reflexivity].
  destruct (Nat.eqb_spec aid id) as [E|E]; simpl.
  - unfold set_active, set_store. simpl. rewrite filter_idem.
    destruct id; reflexivity.
  - unfold set_store. simpl. rewrite filter_idem.
    destruct (Nat.eqb_spec aid id); [congruence | reflexivity].
Qed.

Lemma connect_absent (env : Env) (a : App) (id : nat) :
  env_store_ok env = true ->
  (forall c, In c (configDB a) -> ID c <> id) ->
  ConnectToDatabase env id a = (Err (ErrUnsupportedType ""), a).
Proof.
  intros Hok Habs. unfold ConnectToDatabase, store_Find.
  rewrite Hok, (find_absent _ _ Habs). reflexivity.
Qed.

(** X6. After a successful [DeleteConnection id], [ConnectToDatabase id]
    (with a working store) no longer finds the profile: it fails with
    "unsupported database type: " for the empty type and changes nothing. *)
Theorem delete_then_connect (env env' : Env) (id : nat) (a : App) :
  env_store_ok env = true -> env_store_ok env' = true ->
  ConnectToDatabase env' id (snd (DeleteConnection env id a)) =
  (Err (ErrUnsupportedType ""), snd (DeleteConnection env id a)).
Proof.
  intros Hok Hok'. apply connect_absent; [exact Hok'|].
  intros c Hc. unfold DeleteConnection in Hc. rewrite Hok in Hc. simpl in Hc.
  assert (Hc' : In c (List.filter (fun c => negb (Nat.eqb (ID c) id)) (configDB a))).
  { destruct (Nat.eqb (activeConnID a) id); exact Hc. }
  apply filter_In in Hc' as [_ Hne]. intros E. rewrite E, Nat.eqb_refl in Hne.
  discriminate.
Qed.

Lemma delete_then_connect_witness :
  env_store_ok env0 = true /\ env_store_ok env0 = true /\
  ConnectToDatabase env0 1 (snd (DeleteConnection env0 1 app1)) =
  (Err (ErrUnsupportedType ""), snd (DeleteConnection env0 1 app1)).
Proof.
  split; [reflexivity|]. split; [reflexivity|].
  apply delete_then_connect; reflexivity.
Defined.

(** ** Outcomes of connecting and probing *)

(** X7. A failing [ConnectToDatabase] leaves the active connection and the
    store as they were, and fails with one of three kinds: ProfileNotFound,
    UnsupportedBackend or ConnectionUnreachable. It reports
    "connection not found" only when the store query itself fails. *)
Theorem connect_failure_frame (env : Env) (id : nat) (a a' : App) (e : GoError) :
  ConnectToDatabase env id a = (Err e, a') ->
  activeDB a' = activeDB a /\ activeConnID a' = activeConnID a /\
  configDB a' = configDB a /\
  (kind e = ProfileNotFound \/ kind e = UnsupportedBackend \/
   kind e = ConnectionUnreachable) /\
  (kind e = ProfileNotFound -> env_store_ok env = false).
Proof.
  unfold ConnectToDatabase, store_Find.
  destruct (env_store_ok env).
  2:{ intros H. injection H as <- <-. repeat split; auto. }
  destruct (List.find _ _) as [c|].
  2:{ intros H. injection H as <- <-. simpl. repeat split; auto. discriminate. }
  destruct (dialect_of (Type_ c)).
  2:{ intros H. injection H as <- <-. repeat split; auto. discriminate. }
  unfold gorm_Open. destruct (env_open env (Type_ c) (DSN c)).
  2:{ intros H. injection H as <- <-. repeat split; auto. discriminate. }
  simpl. destruct (negb (Ping env _)); [|discriminate].
  intros H. injection H as <- <-. simpl. repeat split; auto. discriminate.
Qed.

Lemma connect_failure_frame_witness :
  ConnectToDatabase env0 2 app1 = (Err ErrPing, snd (ConnectToDatabase env0 2 app1)) /\
  activeDB (snd (ConnectToDatabase env0 2 app1)) = activeDB app1 /\
  activeConnID (snd (ConnectToDatabase env0 2 app1)) = activeConnID app1 /\
  configDB (snd (ConnectToDatabase env0 2 app1)) = configDB app1 /\
  (kind ErrPing = ProfileNotFound \/ kind ErrPing = UnsupportedBackend \/
   kind ErrPing = ConnectionUnreachable) /\
  (kind ErrPing = ProfileNotFound -> env_store_ok env0 = false).
Proof.
  assert (H : ConnectToDatabase env0 2 app1 = (Err ErrPing, snd (ConnectToDatabase env0 2 app1))).
  { vm_compute. reflexivity. }
  split; [exact H | exact (connect_failure_frame env0 2 app1 _ ErrPing H)].
Defined.

(** X8. [TestConnection] succeeds exactly when the type is "postgres" or
    "sqlite", the DSN opens and the ping succeeds; otherwise it fails with
    an UnsupportedBackend or ConnectionUnreachable error, never with any
    other kind. *)
Theorem test_connection_outcome (env : Env) (dbType dsn : string) (a : App) :
  (fst (TestConnection env dbType dsn a) = Ok tt <->
   dialect_of dbType <> None /\ env_open env dbType dsn = true /\
   env_ping env dbType dsn = true) /\
  (forall e, fst (TestConnection env dbType dsn a) = Err e ->
             kind e = UnsupportedBackend \/ kind e = ConnectionUnreachable).
Proof.
  unfold TestConnection.
  destruct (dialect_of dbType) as [d|].
  2:{ simpl. split; [split; [discriminate | intros (H & _); congruence]|].
      intros e H. injection H as <-. left. reflexivity. }
  unfold gorm_Open. destruct (env_open env dbType dsn) eqn:Ho.
  2:{ simpl. split; [split; [discriminate | intros (_ & H & _); discriminate]|].
      intros e H. injection H as <-. right. reflexivity. }
  simpl. unfold Ping. simpl. destruct (env_ping env dbType dsn); simpl.
  - split; [split; [intros _; repeat split; discriminate | reflexivity]|].
    intros e H. discriminate.
  - split; [split; [discriminate | intros (_ & _ & H); discriminate]|].
    intros e H. injection H as <-. right. reflexivity.
Qed.

(** ** Handle bookkeeping in reachable states *)

(** Open handles carry numbers below the next one, and the active handle is
    one of the open handles. *)
Definition handles_ok (a : App) : Prop :=
  (forall x, In x (open_handles a) -> x < next_handle a) /\
  (forall h, activeDB a = Some h -> In (h_id h) (open_handles a)).

Lemma handles_ok_open (a : App) :
  handles_ok a ->
  (forall x, In x (open_handles a ++ [next_handle a]) -> x < S (next_handle a)).
Proof.
  intros [Hlt _] x Hx. apply in_app_or in Hx as [Hx|[<-|[]]]; [|lia].
  pose proof (Hlt x Hx). lia.
Qed.

Lemma connect_handles_ok (env : Env) (id : nat) (a : App) :
  handles_ok a -> handles_ok (snd (ConnectToDatabase env id a)).
Proof.
  intros Hh. pose proof (handles_ok_open a Hh) as Hopen. destruct Hh as [Hlt Hact].
  unfold ConnectToDatabase, store_Find.
  destruct (env_store_ok env); [|split; assumption].
  destruct (List.find _ _) as [c|]; [|split; assumption].
  destruct (dialect_of (Type_ c)); [|split; assumption].
  unfold gorm_Open. destruct (env_open env (Type_ c) (DSN c)); [|split; assumption].
  simpl. destruct (negb (Ping env _)); simpl; split; try exact Hopen.
  - intros h Hh. apply in_or_app. left. exact (Hact h Hh).
  - intros h Hh. injection Hh as <-. simpl. apply in_or_app. right. left. reflexivity.
Qed.

(** The open handles after [TestConnection]: unchanged when nothing was
    opened, otherwise the new one is closed again. *)
Lemma TestConnection_handles (env : Env) (dbType dsn : string) (a : App) :
  (open_handles (snd (TestConnection env dbType dsn a)) = open_handles a /\
   next_handle (snd (TestConnection env dbType dsn a)) = next_handle a) \/
  (open_handles (snd (TestConnection env dbType dsn a)) =
     List.filter (fun x => negb (Nat.eqb x (next_handle a)))
       (open_handles a ++ [next_handle a]) /\
   next_handle (snd (TestConnection env dbType dsn a)) = S (next_handle a)).
Proof.
  unfold TestConnection. destruct (dialect_of dbType); [|left; split; reflexivity].
  unfold gorm_Open. destruct (env_open env dbType dsn); [|left; split; reflexivity].
  right. split; reflexivity.
Qed.

Lemma test_handles_ok (env : Env) (dbType dsn : string) (a : App) :
  handles_ok a -> handles_ok (snd (TestConnection env dbType dsn a)).
Proof.
  intros Hh. pose proof (handles_ok_open a Hh) as Hopen. destruct Hh as [Hlt Hact].
  pose proof (TestConnection_state env dbType dsn a) as (Hdb & _).
  destruct (TestConnection_handles env dbType dsn a) as [[Ho Hn]|[Ho Hn]];
    split; rewrite ?Ho, ?Hn, ?Hdb.
  - exact Hlt.
  - exact Hact.
  - intros x Hx. apply filter_In in Hx as [Hx _]. exact (Hopen x Hx).
  - intros h Hh. apply filter_In. split.
    + apply in_or_app. left. exact (Hact h Hh).
    + pose proof (Hlt _ (Hact h Hh)).
      destruct (Nat.eqb_spec (h_id h) (next_handle a)); [lia | reflexivity].
Qed.

Lemma delete_handles_ok (env : Env) (id : nat) (a : App) :
  handles_ok a -> handles_ok (snd (DeleteConnection env id a)).
Proof.
  intros [Hlt Hact]. unfold DeleteConnection.
  destruct (env_store_ok env); [|split; assumption].
  simpl. destruct (Nat.eqb (activeConnID a) id); simpl; split; try assumption.
  discriminate.
Qed.

Lemma save_handles_ok (env : Env) (name dbType dsn : string) (a : App) :
  handles_ok a -> handles_ok (snd (saveConnection env name dbType dsn a)).
Proof.
  intros [Hlt Hact]. unfold saveConnection.
  destruct (env_store_ok env); split; assumption.
Qed.

Lemma reachable_handles_ok (a : App) : reachable a -> handles_ok a.
Proof.
  induction 1 as [cs n Hids Hn | env op a _ IH].
  - split; [intros x []|discriminate].
  - destruct op; simpl.
    + apply connect_handles_ok, IH.
    + apply delete_handles_ok, IH.
    + apply test_handles_ok, IH.
    + exact IH.
    + exact IH.
    + apply save_handles_ok, IH.
    + exact IH.
Qed.

(** X9. In every reachable state the active handle is still open (no
    operation closes it, replacing or clearing it included), every open
    handle is numbered below the next one, and so a [TestConnection] leaves
    exactly the same handles open as before it ran. *)
Theorem reachable_handles (a : App) :
  reachable a ->
  (forall h, activeDB a = Some h -> In (h_id h) (open_handles a)) /\
  (forall x, In x (open_handles a) -> x < next_handle a) /\
  (forall env dbType dsn,
     open_handles (snd (TestConnection env dbType dsn a)) = open_handles a).
Proof.
  intros Hr. destruct (reachable_handles_ok a Hr) as [Hlt Hact].
  split; [exact Hact|]. split; [exact Hlt|].
  intros env dbType dsn.
  destruct (TestConnection_handles env dbType dsn a) as [[Ho _]|[Ho _]]; rewrite Ho;
    [reflexivity|].
  apply filter_app_fresh. intros Hin. pose proof (Hlt _ Hin). lia.
Qed.

Lemma reachable_app1 : reachable app1.
Proof.
  change (reachable (exec env0 (OpConnect 1) app0)).
  apply reach_step. apply reach_init; [repeat constructor | lia].
Qed.

Lemma reachable_handles_witness :
  reachable app1 /\
  ((forall h, activeDB app1 = Some h -> In (h_id h) (open_handles app1)) /\
   (forall x, In x (open_handles app1) -> x < next_handle app1) /\
   (forall env dbType dsn,
      open_handles (snd (TestConnection env dbType dsn app1)) = open_handles app1)).
Proof. split; [exact reachable_app1 | exact (reachable_handles app1 reachable_app1)]. Defined.

(** ** The active profile in reachable states *)

(** While a handle is active, the store's lookup of [activeConnID] finds a
    profile of a supported type whose type and DSN the handle was opened
    with. *)
Definition profile_ok (a : App) : Prop :=
  forall h, activeDB a = Some h ->
  exists c d,
    List.find (fun c => Nat.eqb (ID c) (activeConnID a)) (configDB a) = Some c /\
    dialect_of (Type_ c) = Some d /\ h_type h = Type_ c /\ h_dsn h = DSN c.

Lemma connect_profile_ok (env : Env) (id : nat) (a : App) :
  profile_ok a -> profile_ok (snd (ConnectToDatabase env id a)).
Proof.
  intros Hp. unfold ConnectToDatabase, store_Find.
  destruct (env_store_ok env); [|exact Hp].
  destruct (List.find _ _) as [c|] eqn:Ef; [|exact Hp].
  destruct (dialect_of (Type_ c)) as [d|] eqn:Ed; [|exact Hp].
  unfold gorm_Open. destruct (env_open env (Type_ c) (DSN c)); [|exact Hp].
  simpl. destruct (negb (Ping env _)); simpl; [exact Hp|].
  intros h Hh. injection Hh as <-. exists c, d. simpl. auto.
Qed.

Lemma delete_profile_ok (env : Env) (id : nat) (a : App) :
  profile_ok a -> profile_ok (snd (DeleteConnection env id a)).
Proof.
  intros Hp. unfold DeleteConnection.
  destruct (env_store_ok env); [|exact Hp].
  cbn [snd set_store activeConnID].
  destruct (Nat.eqb_spec (activeConnID a) id) as [E|E]; [discriminate|].
  intros h Hh. destruct (Hp h Hh) as (c & d & Hf & Hrest).
  exists c, d. cbn [configDB activeConnID set_store].
  rewrite find_filter_other by exact E. auto.
Qed.

Lemma test_profile_ok (env : Env) (dbType dsn : string) (a : App) :
  profile_ok a -> profile_ok (snd (TestConnection env dbType dsn a)).
Proof.
  intros Hp. pose proof (TestConnection_state env dbType dsn a) as (Hdb & Hid & Hcfg & _).
  unfold profile_ok. rewrite Hdb, Hid, Hcfg. exact Hp.
Qed.

Lemma save_profile_ok (env : Env) (name dbType dsn : string) (a : App) :
  profile_ok a -> profile_ok (snd (saveConnection env name dbType dsn a)).
Proof.
  intros Hp. unfold saveConnection.
  destruct (env_store_ok env); [|exact Hp].
  intros h Hh. simpl in Hh. destruct (Hp h Hh) as (c & d & Hf & Hrest).
  exists c, d. simpl. rewrite (find_app_l _ _ _ _ Hf). auto.
Qed.

Lemma reachable_profile_ok (a : App) : reachable a -> profile_ok a.
Proof.
  induction 1 as [cs n Hids Hn | env op a _ IH].
  - discriminate.
  - destruct op; simpl.
    + apply connect_profile_ok, IH.
    + apply delete_profile_ok, IH.
    + apply test_profile_ok, IH.
    + exact IH.
    + exact IH.
    + apply save_profile_ok, IH.
    + exact IH.
Qed.

(** X10. In a reachable state with an active handle and a working store,
    [GetTables] and [getColumnInfo] pass every check before the query: the
    active profile is found, its type is supported, and the query runs on
    the backend that profile's type and DSN name. The only error left is
    the failing query ([ErrQueryTables], [ErrQuery]). *)
Theorem reachable_listing_uses_active_profile (env : Env) (a : App) (h : handle) :
  reachable a -> activeDB a = Some h -> env_store_ok env = true ->
  exists c d,
    In c (configDB a) /\ ID c = activeConnID a /\ dialect_of (Type_ c) = Some d /\
    GetTables env a =
      match be_list_tables (env_backend env (Type_ c) (DSN c)) d with
      | None => Err ErrQueryTables
      | Some rows => Ok (tables_loop (env_backend env (Type_ c) (DSN c)) rows)
      end /\
    (forall tableName,
       getColumnInfo env a tableName =
         match be_columns (env_backend env (Type_ c) (DSN c)) d tableName with
         | None => Err ErrQuery
         | Some rows => Ok (columns_loop (scan_column d) rows)
         end).
Proof.
  intros Hr Hh Hok.
  destruct (reachable_profile_ok a Hr h Hh) as (c & d & Hf & Hd & Ht & Hdsn).
  destruct (find_some_in _ _ _ Hf) as [Hin Hid].
  exists c, d. split; [exact Hin|]. split; [exact Hid|]. split; [exact Hd|].
  unfold GetTables, getColumnInfo, store_First, gorm_DB, backend_of.
  rewrite Hh, Hok, Hf, Hd, Ht, Hdsn. split; [reflexivity|]. intros; reflexivity.
Qed.

Lemma reachable_listing_uses_active_profile_witness :
  reachable app1 /\
  activeDB app1 = Some {| h_id := 0; h_type := "sqlite"; h_dsn := "file:test.db" |} /\
  env_store_ok env0 = true /\
  exists c d,
    In c (configDB app1) /\ ID c = activeConnID app1 /\ dialect_of (Type_ c) = Some d /\
    GetTables env0 app1 =
      match be_list_tables (env_backend env0 (Type_ c) (DSN c)) d with
      | None => Err ErrQueryTables
      | Some rows => Ok (tables_loop (env_backend env0 (Type_ c) (DSN c)) rows)
      end /\
    (forall tableName,
       getColumnInfo env0 app1 tableName =
         match be_columns (env_backend env0 (Type_ c) (DSN c)) d tableName with
         | None => Err ErrQuery
         | Some rows => Ok (columns_loop (scan_column d) rows)
         end).
Proof.
  assert (Ha : activeDB app1 =
               Some {| h_id := 0; h_type := "sqlite"; h_dsn := "file:test.db" |}).
  { vm_compute. reflexivity. }
  split; [exact reachable_app1|]. split; [exact Ha|]. split; [reflexivity|].
  exact (reachable_listing_uses_active_profile env0 app1 _ reachable_app1 Ha eq_refl).
Defined.

(** ** Pages of a table *)

(** X11. [GetTableData] never returns a page for a name the active backend
    does not resolve to a table: its count query fails, so the call ends
    in [ErrTotalCount], or earlier in the column lookup. *)
Theorem get_page_unknown_table (env : Env) (a : App) (db : handle) (tableName : string)
    (offset limit : Z) :
  activeDB a = Some db ->
  be_table (backend_of env db) tableName = None ->
  GetTableData env a tableName offset limit = Err ErrTotalCount \/
  exists e, GetTableData env a tableName offset limit = Err (ErrColumnInfo e).
Proof.
  intros Hdb Htb. unfold GetTableData. rewrite Hdb. simpl.
  destruct (getColumnInfo env a tableName) as [columns|e]; [|right; exists e; reflexivity].
  left. unfold count_query. rewrite Htb. reflexivity.
Qed.

Lemma get_page_unknown_table_witness :
  activeDB app1 = Some {| h_id := 0; h_type := "sqlite"; h_dsn := "file:test.db" |} /\
  be_table (backend_of env0 {| h_id := 0; h_type := "sqlite"; h_dsn := "file:test.db" |})
    "missing" = None /\
  (GetTableData env0 app1 "missing" 0 10 = Err ErrTotalCount \/
   exists e, GetTableData env0 app1 "missing" 0 10 = Err (ErrColumnInfo e)).
Proof.
  assert (Ha : activeDB app1 =
               Some {| h_id := 0; h_type := "sqlite"; h_dsn := "file:test.db" |}).
  { vm_compute. reflexivity. }
  assert (Hb : be_table (backend_of env0 {| h_id := 0; h_type := "sqlite";
                                            h_dsn := "file:test.db" |}) "missing" = None).
  { vm_compute. reflexivity. }
  split; [exact Ha|]. split; [exact Hb|].
  exact (get_page_unknown_table env0 app1 _ "missing" 0 10 Ha Hb).
Defined.




(** X13. On a SQLite handle a negative offset reads as offset 0, and a
    negative limit reads as a limit equal to the table's size: the call
    returns exactly what the call with those values returns. *)
Theorem get_page_sqlite_negative (env : Env) (a : App) (db : handle) (tableName : string)
    (tb : table) (offset limit : Z) :
  activeDB a = Some db ->
  dialect_of (h_type db) = Some SQLite ->
  be_table (backend_of env db) tableName = Some tb ->
  ((offset < 0)%Z ->
     GetTableData env a tableName offset limit = GetTableData env a tableName 0 limit) /\
  ((limit < 0)%Z ->
     GetTableData env a tableName offset limit =
     GetTableData env a tableName offset (Z.of_nat (length (t_rows tb)))).
Proof.
  intros Hdb Hd Htb. unfold GetTableData. rewrite Hdb. unfold gorm_DB. cbv beta iota.
  unfold data_query. rewrite Hd, Htb. cbn [select_page].
  split; intros Hneg.
  - assert (Z.to_nat offset = 0) as -> by lia. reflexivity.
  - destruct (Z.ltb_spec limit 0) as [_|]; [|lia].
    destruct (Z.ltb_spec (Z.of_nat (length (t_rows tb))) 0) as [|_]; [lia|].
    rewrite Nat2Z.id, take_ge by (rewrite length_drop; lia). reflexivity.
Qed.

Lemma get_page_sqlite_negative_witness :
  activeDB app1 = Some {| h_id := 0; h_type := "sqlite"; h_dsn := "file:test.db" |} /\
  dialect_of "sqlite" = Some SQLite /\
  be_table (backend_of env0 {| h_id := 0; h_type := "sqlite"; h_dsn := "file:test.db" |})
    "t" = Some tbl_t /\
  ((-3 < 0)%Z -> GetTableData env0 app1 "t" (-3) (-1) = GetTableData env0 app1 "t" 0 (-1)) /\
  ((-1 < 0)%Z ->
     GetTableData env0 app1 "t" (-3) (-1) =
     GetTableData env0 app1 "t" (-3) (Z.of_nat (length (t_rows tbl_t)))).
Proof.
  assert (Ha : activeDB app1 =
               Some {| h_id := 0; h_type := "sqlite"; h_dsn := "file:test.db" |}).
  { vm_compute. reflexivity. }
  split; [exact Ha|]. split; [reflexivity|]. split; [reflexivity|].
  exact (get_page_sqlite_negative env0 app1 _ "t" tbl_t (-3) (-1) Ha eq_refl eq_refl).
Defined.

(** ** Reading after the active profile is deleted *)

(** X14. Deleting the profile that is active (with a working store) cuts
    the readers off: afterwards [GetTables] and [GetTableData] report
    [ErrNoActive] and [getColumnInfo] panics, whatever the environment. *)
Theorem delete_active_then_read (env env' : Env) (a : App) :
  env_store_ok env = true ->
  let a' := snd (DeleteConnection env (activeConnID a) a) in
  GetTables env' a' = Err ErrNoActive /\
  (forall tableName offset limit,
     GetTableData env' a' tableName offset limit = Err ErrNoActive) /\
  (forall tableName, getColumnInfo env' a' tableName = Err PanicNilPointer).
Proof.
  intros Hok a'. subst a'.
  unfold GetTables, GetTableData, getColumnInfo, DeleteConnection. rewrite Hok.
  cbn [snd set_store activeConnID]. rewrite Nat.eqb_refl. cbn [activeDB set_active].
  split; [reflexivity|]. split; intros; reflexivity.
Qed.

Lemma delete_active_then_read_witness :
  env_store_ok env0 = true /\
  (let a' := snd (DeleteConnection env0 (activeConnID app1) app1) in
   GetTables env0 a' = Err ErrNoActive /\
   (forall tableName offset limit,
      GetTableData env0 a' tableName offset limit = Err ErrNoActive) /\
   (forall tableName, getColumnInfo env0 a' tableName = Err PanicNilPointer)).
Proof. split; [reflexivity | exact (delete_active_then_read env0 env0 app1 eq_refl)]. Defined.

